(** * hippocampus_common.node: the [Node] base class over rospy

    A shallow embedding of [src/hippocampus_common/node.py].  The class
    delegates every operation to the rospy client library, so the embedding
    is parametric in a framework interface ([rospy.Framework]): each
    framework primitive is a transformer of an abstract world, and each
    invocation is recorded as an event.  The methods of [Node] are written
    in a small state/exception/trace monad following the Python text line
    by line. *)

From Stdlib Require Import ZArith String Ascii List Bool Lia.
From stdpp Require Import base gmap strings.
Import ListNotations.
Open Scope string_scope.
Open Scope list_scope.
Open Scope Z_scope.

(** ** Python values, strings and exceptions *)

(** A Python value is [None] or some other object.  The class of objects is
    left open; all the code needs of an object is its [str()]. *)
Inductive PyVal (Obj : Type) : Type :=
| PyNone
| PyObj (o : Obj).
Arguments PyNone {Obj}.
Arguments PyObj {Obj} o.

Class PyObject (Obj : Type) := { obj_str : Obj -> string }.

(** Exceptions: [KeyError] is the one class the module names; [OtherError]
    stands for an exception of any other class. *)
Inductive Exn : Type :=
| KeyError (arg : string)
| OtherError (cls : string) (arg : string).

Definition is_KeyError (e : Exn) : bool :=
  match e with
  | KeyError _ => true
  | OtherError _ _ => false
  end.

Inductive Result (A : Type) : Type :=
| Ok (a : A)
| Raise (e : Exn).
Arguments Ok {A} a.
Arguments Raise {A} e.

(** [len(s)] *)
Definition len (s : string) : Z := Z.of_nat (String.length s).

(** The first [n] characters of [s] (all of [s] when it is shorter). *)
Fixpoint str_take (n : nat) (s : string) : string :=
  match n, s with
  | O, _ => EmptyString
  | S _, EmptyString => EmptyString
  | S n', String c s' => String c (str_take n' s')
  end.

(** [s[:stop]]: a negative [stop] counts from the end, and the bounds are
    clipped to the string. *)
Definition py_slice_to (s : string) (stop : Z) : string :=
  if stop <? 0
  then str_take (Z.to_nat (Z.max 0 (len s + stop))) s
  else str_take (Z.to_nat stop) s.

(** [fmt.format(a1, ..., an)] for templates whose only fields are [{}]: each
    field takes the next argument. *)
Fixpoint format (fmt : string) (args : list string) : string :=
  match fmt with
  | EmptyString => EmptyString
  | String c rest =>
      match rest, args with
      | String c' rest', a :: args' =>
          if (Ascii.eqb c "{" && Ascii.eqb c' "}")%bool
          then a +:+ format rest' args'
          else String c (format rest args)
      | _, _ => String c (format rest args)
      end
  end.

(** ["{}".format(v)] *)
Definition str {Obj} `{PyObject Obj} (v : PyVal Obj) : string :=
  match v with
  | PyNone => "None"
  | PyObj o => obj_str o
  end.

(** ** The framework interface *)

Module rospy.

(** The primitives of rospy the module calls.  The world [W] is whatever
    the framework and its environment keep: the registered node, the
    parameter server, the log, the shutdown flag.  Registration, the two
    parameter calls and [spin] may raise. *)
Class Framework (Obj W : Type) := {
  fw_init_node : string -> bool -> bool -> W -> Result unit * W;
  fw_get_name : W -> string;
  fw_loginfo : string -> W -> W;
  fw_logwarn : string -> W -> W;
  fw_get_param : string -> W -> Result (PyVal Obj) * W;
  fw_set_param : string -> PyVal Obj -> W -> Result unit * W;
  fw_is_shutdown : W -> bool;
  fw_spin : W -> Result unit * W
}.

(** What was called, and what came back. *)
Inductive Call (Obj : Type) : Type :=
| CInitNode (name : string) (anonymous disable_signals : bool)
| CGetName
| CLogInfo (msg : string)
| CLogWarn (msg : string)
| CGetParam (name : string)
| CSetParam (name : string) (value : PyVal Obj)
| CIsShutdown
| CSpin.
Arguments CInitNode {Obj}.
Arguments CGetName {Obj}.
Arguments CLogInfo {Obj}.
Arguments CLogWarn {Obj}.
Arguments CGetParam {Obj}.
Arguments CSetParam {Obj}.
Arguments CIsShutdown {Obj}.
Arguments CSpin {Obj}.

Inductive Reply (Obj : Type) : Type :=
| RUnit
| RBool (b : bool)
| RStr (s : string)
| RVal (v : PyVal Obj)
| RRaised (e : Exn).
Arguments RUnit {Obj}.
Arguments RBool {Obj}.
Arguments RStr {Obj}.
Arguments RVal {Obj}.
Arguments RRaised {Obj}.

Record Event (Obj : Type) : Type := Ev {
  ev_call : Call Obj;
  ev_reply : Reply Obj
}.
Arguments Ev {Obj}.
Arguments ev_call {Obj}.
Arguments ev_reply {Obj}.

(** A computation runs in a world and yields a result or an exception,
    the world it leaves and the framework calls it made, in order. *)
Definition M (Obj W A : Type) : Type := W -> Result A * W * list (Event Obj).

Section Monad.
Context {Obj W : Type}.

Definition ret {A} (a : A) : M Obj W A := fun w => (Ok a, w, []).

Definition bind {A B} (m : M Obj W A) (k : A -> M Obj W B) : M Obj W B :=
  fun w =>
    match m w with
    | (Ok a, w1, t1) =>
        match k a w1 with
        | (r, w2, t2) => (r, w2, t1 ++ t2)
        end
    | (Raise e, w1, t1) => (Raise e, w1, t1)
    end.

(** [try: body / except <class>: handler / else: orelse].  An exception
    of [body] that [catches] accepts runs [handler]; any other one
    propagates; exceptions of [handler] and of [orelse] propagate. *)
Definition try_except_else {A B} (body : M Obj W A) (catches : Exn -> bool)
    (handler : M Obj W B) (orelse : A -> M Obj W B) : M Obj W B :=
  fun w =>
    match body w with
    | (Ok a, w1, t1) =>
        match orelse a w1 with
        | (r, w2, t2) => (r, w2, t1 ++ t2)
        end
    | (Raise e, w1, t1) =>
        if catches e
        then match handler w1 with
             | (r, w2, t2) => (r, w2, t1 ++ t2)
             end
        else (Raise e, w1, t1)
    end.
End Monad.

Section Calls.
Context {Obj W : Type} `{Framework Obj W}.

Definition reply_of {A} (ok : A -> Reply Obj) (r : Result A) : Reply Obj :=
  match r with
  | Ok a => ok a
  | Raise e => RRaised e
  end.

Definition init_node (name : string) (anonymous disable_signals : bool)
  : M Obj W unit :=
  fun w =>
    let '(r, w1) := fw_init_node name anonymous disable_signals w in
    (r, w1, [Ev (CInitNode name anonymous disable_signals)
                (reply_of (fun _ => RUnit) r)]).

Definition get_name : M Obj W string :=
  fun w => (Ok (fw_get_name w), w, [Ev CGetName (RStr (fw_get_name w))]).

Definition loginfo (msg : string) : M Obj W unit :=
  fun w => (Ok tt, fw_loginfo msg w, [Ev (CLogInfo msg) RUnit]).

Definition logwarn (msg : string) : M Obj W unit :=
  fun w => (Ok tt, fw_logwarn msg w, [Ev (CLogWarn msg) RUnit]).

Definition get_param (name : string) : M Obj W (PyVal Obj) :=
  fun w =>
    let '(r, w1) := fw_get_param name w in
    (r, w1, [Ev (CGetParam name) (reply_of RVal r)]).

Definition set_param (name : string) (value : PyVal Obj) : M Obj W unit :=
  fun w =>
    let '(r, w1) := fw_set_param name value w in
    (r, w1, [Ev (CSetParam name value) (reply_of (fun _ => RUnit) r)]).

Definition is_shutdown : M Obj W bool :=
  fun w => (Ok (fw_is_shutdown w), w,
            [Ev CIsShutdown (RBool (fw_is_shutdown w))]).

Definition spin : M Obj W unit :=
  fun w =>
    let '(r, w1) := fw_spin w in
    (r, w1, [Ev CSpin (reply_of (fun _ => RUnit) r)]).
End Calls.

(** Loops need not end: a computation with a loop takes fuel, one unit
    per test of the loop, and yields [None] when the fuel is spent. *)
Definition P (Obj W A : Type) : Type :=
  W -> option (Result A * W * list (Event Obj)).

Section Partial.
Context {Obj W : Type}.

Definition lift {A} (m : M Obj W A) : P Obj W A := fun w => Some (m w).

Definition pbind {A B} (m : P Obj W A) (k : A -> P Obj W B) : P Obj W B :=
  fun w =>
    match m w with
    | None => None
    | Some (Ok a, w1, t1) =>
        match k a w1 with
        | None => None
        | Some (r, w2, t2) => Some (r, w2, t1 ++ t2)
        end
    | Some (Raise e, w1, t1) => Some (Raise e, w1, t1)
    end.

(** [while cond: body] *)
Fixpoint while (fuel : nat) (cond : M Obj W bool) (body : M Obj W unit)
  : P Obj W unit :=
  match fuel with
  | O => fun _ => None
  | S fuel' =>
      pbind (lift cond) (fun c =>
        if c
        then pbind (lift body) (fun _ => while fuel' cond body)
        else lift (ret tt))
  end.
End Partial.

End rospy.

Notation "x <- m ;; k" := (rospy.bind m (fun x => k))
  (at level 100, m at next level, right associativity).
Notation "m ;; k" := (rospy.bind m (fun _ => k))
  (at level 100, right associativity).

(** ** The module: [class Node(object)] *)

Module Node.
Section Methods.
Context {Obj W : Type} `{PyObject Obj} `{rospy.Framework Obj W}.

(** [def __init__(self, name, anonymous=False, disable_signals=False)] *)
Definition __init__ (name : string) (anonymous disable_signals : bool)
  : rospy.M Obj W unit :=
  rospy.init_node name anonymous disable_signals ;;
  node <- rospy.get_name ;;
  rospy.loginfo (format "[{}] Initialized." [node]).

(** [def run(self)] *)
Definition run (fuel : nat) : rospy.P Obj W unit :=
  rospy.pbind
    (rospy.while fuel
       (down <- rospy.is_shutdown ;; rospy.ret (negb down))
       rospy.spin)
    (fun _ => rospy.lift (
       node <- rospy.get_name ;;
       rospy.loginfo (format "[{}] Shutting down..." [node]))).

(** The default of the [limit] arguments. *)
Definition default_limit : Z := 80 * 5.

(** [def get_param(name, default=None, verbose=True, limit=80 * 5)] *)
Definition get_param (name : string) (default : PyVal Obj)
    (verbose : bool) (limit : Z) : rospy.M Obj W (PyVal Obj) :=
  param <- rospy.try_except_else (rospy.get_param name)
    (* except KeyError: *) is_KeyError
    (let param := default in
     match default with
     | PyNone =>
         node <- rospy.get_name ;;
         rospy.logwarn
           (format ("[{}] No default value given for parameter '{}', unexpected"
                    +:+ " behaviour possible.") [node; name])
     | PyObj _ =>
         rospy.set_param name default ;;
         node <- rospy.get_name ;;
         rospy.logwarn
           (format ("[{}] Parameter '{}' does not exist. "
                    +:+ "Using default value '{}'.")
                   [node; name; str default])
     end ;;
     rospy.ret param)
    (* else: *)
    (fun param =>
       (if verbose
        then
          let param_string := format "{}" [str param] in
          let param_string :=
            if ((0 <? limit) && (limit <? len param_string))%bool
            then py_slice_to param_string limit +:+ "..."
            else param_string in
          node <- rospy.get_name ;;
          rospy.loginfo (format "[{}] {}={}" [node; name; param_string])
        else rospy.ret tt) ;;
       rospy.ret param) ;;
  rospy.ret param.

(** [def set_param(name, value, verbose=True, limit=80 * 5)] *)
Definition set_param (name : string) (value : PyVal Obj)
    (verbose : bool) (limit : Z) : rospy.M Obj W unit :=
  rospy.set_param name value ;;
  let value_string := format "{}" [str value] in
  let value_string :=
    if ((0 <? limit) && (limit <? len value_string))%bool
    then py_slice_to value_string limit +:+ "..."
    else value_string in
  node <- rospy.get_name ;;
  rospy.loginfo (format "[{}] {}={}" [node; name; value_string]).
End Methods.
End Node.

(** ** Observations on outcomes and traces *)

Section Observations.
Context {Obj W : Type}.

Definition result_of {A} (x : Result A * W * list (rospy.Event Obj)) : Result A :=
  fst (fst x).
Definition world_of {A} (x : Result A * W * list (rospy.Event Obj)) : W :=
  snd (fst x).
Definition trace_of {A} (x : Result A * W * list (rospy.Event Obj))
  : list (rospy.Event Obj) := snd x.

(** The writes to the parameter server a trace holds: name and value. *)
Fixpoint writes (t : list (rospy.Event Obj)) : list (string * PyVal Obj) :=
  match t with
  | [] => []
  | rospy.Ev (rospy.CSetParam name value) _ :: t' => (name, value) :: writes t'
  | _ :: t' => writes t'
  end.

(** The messages logged at level info, and at level warning. *)
Fixpoint info_messages (t : list (rospy.Event Obj)) : list string :=
  match t with
  | [] => []
  | rospy.Ev (rospy.CLogInfo msg) _ :: t' => msg :: info_messages t'
  | _ :: t' => info_messages t'
  end.

Fixpoint warn_messages (t : list (rospy.Event Obj)) : list string :=
  match t with
  | [] => []
  | rospy.Ev (rospy.CLogWarn msg) _ :: t' => msg :: warn_messages t'
  | _ :: t' => warn_messages t'
  end.

(** Calls on the parameter server, as opposed to logging, naming and the
    life cycle. *)
Definition is_param_call (ev : rospy.Event Obj) : bool :=
  match rospy.ev_call ev with
  | rospy.CGetParam _ | rospy.CSetParam _ _ => true
  | _ => false
  end.

(** The one exception the module handles: [KeyError] out of a lookup. *)
Definition handled (ev : rospy.Event Obj) : bool :=
  match ev with
  | rospy.Ev (rospy.CGetParam _) (rospy.RRaised e) => is_KeyError e
  | _ => false
  end.
End Observations.

(** The two warnings and the value line, as the module words them. *)
Definition no_default_warning (node name : string) : string :=
  format ("[{}] No default value given for parameter '{}', unexpected"
          +:+ " behaviour possible.") [node; name].

Definition default_warning (node name default : string) : string :=
  format ("[{}] Parameter '{}' does not exist. " +:+ "Using default value '{}'.")
         [node; name; default].

Definition value_line (node name shown : string) : string :=
  format "[{}] {}={}" [node; name; shown].

(** The text of a value as the accessors log it: what the two-line
    truncation of [get_param] and [set_param] leaves of [s]. *)
Definition shown (limit : Z) (s : string) : string :=
  if ((0 <? limit) && (limit <? len s))%bool
  then py_slice_to s limit +:+ "..."
  else s.

(** What the specification says of the logged text, for a value whose
    [str()] is [s]: [text] is the first [limit] characters of [s] followed
    by the ellipsis marker. *)
Definition truncated_to (limit : Z) (s text : string) : Prop :=
  exists p rest, s = p +:+ rest /\ len p = limit /\ text = p +:+ "...".

(** The rule of the specification, as it words it, for every [limit]. *)
Definition logged_as_claimed (limit : Z) (s text : string) : Prop :=
  (limit < len s -> truncated_to limit s text) /\
  (len s <= limit -> text = s).

(** The rule with the guard of the code: no truncation unless [limit > 0]. *)
Definition logged_as_guarded (limit : Z) (s text : string) : Prop :=
  (0 < limit /\ limit < len s -> truncated_to limit s text) /\
  (limit <= 0 \/ len s <= limit -> text = s).

(** ** The loop of [run], turn by turn *)

Section Turns.
Context {Obj W : Type} `{rospy.Framework Obj W}.

(** [spins n w w']: from [w] the loop takes [n] turns and reaches [w'];
    at each turn the shutdown flag is seen false and [spin] returns. *)
Inductive spins : nat -> W -> W -> Prop :=
| spins_O w : spins O w w
| spins_S n w w1 w' :
    rospy.fw_is_shutdown w = false ->
    rospy.fw_spin w = (Ok tt, w1) ->
    spins n w1 w' ->
    spins (S n) w w'.

(** The calls of one turn, and of [n] turns. *)
Definition turn : list (rospy.Event Obj) :=
  [rospy.Ev rospy.CIsShutdown (rospy.RBool false);
   rospy.Ev rospy.CSpin rospy.RUnit].

Fixpoint turns (n : nat) : list (rospy.Event Obj) :=
  match n with
  | O => []
  | S n' => turn ++ turns n'
  end.

(** The loop of [run]. *)
Definition wait_loop (fuel : nat) : rospy.P Obj W unit :=
  rospy.while fuel
    (down <- rospy.is_shutdown ;; rospy.ret (negb down))
    rospy.spin.
End Turns.

(** ** The operations of the class, as one type *)

Inductive Op (Obj : Type) : Type :=
| OpInit (name : string) (anonymous disable_signals : bool)
| OpRun (fuel : nat)
| OpGetParam (name : string) (default : PyVal Obj) (verbose : bool) (limit : Z)
| OpSetParam (name : string) (value : PyVal Obj) (verbose : bool) (limit : Z).
Arguments OpInit {Obj}.
Arguments OpRun {Obj}.
Arguments OpGetParam {Obj}.
Arguments OpSetParam {Obj}.

Section Perform.
Context {Obj W : Type} `{PyObject Obj} `{rospy.Framework Obj W}.

(** How a call ended: normally, or with an exception. *)
Definition ending {A} (x : Result A * W * list (rospy.Event Obj))
  : Result unit * W * list (rospy.Event Obj) :=
  match x with
  | (Ok _, w, t) => (Ok tt, w, t)
  | (Raise e, w, t) => (Raise e, w, t)
  end.

Definition perform (op : Op Obj) (w : W)
  : option (Result unit * W * list (rospy.Event Obj)) :=
  match op with
  | OpInit name anonymous disable_signals =>
      Some (ending (Node.__init__ name anonymous disable_signals w))
  | OpRun fuel => Node.run fuel w
  | OpGetParam name default verbose limit =>
      Some (ending (Node.get_param name default verbose limit w))
  | OpSetParam name value verbose limit =>
      Some (ending (Node.set_param name value verbose limit w))
  end.

(** An outcome is faithful to its trace when every exception a framework
    call raised, the handled one apart, is the exception the operation
    ended with, and the raising call is the last one made. *)
Definition faithful {A} (x : Result A * W * list (rospy.Event Obj)) : Prop :=
  forall ev e,
    In ev (trace_of x) ->
    rospy.ev_reply ev = rospy.RRaised e ->
    handled ev = false ->
    result_of x = Raise e /\ exists t0, trace_of x = t0 ++ [ev].
End Perform.

(** ** A reference framework

    One implementation of the interface, small enough to run: a flat
    parameter server, a log, a registered name, a master that may be
    unreachable, and a shutdown signal that arrives after a number of
    returns of [spin]. *)

Module RefRospy.

Inductive Obj : Type :=
| OBool (b : bool)
| OStr (s : string).

#[export] Instance Obj_PyObject : PyObject Obj :=
  {| obj_str o :=
       match o with
       | OBool true => "True"
       | OBool false => "False"
       | OStr s => s
       end |}.

Inductive Level : Type := INFO | WARN.

Record World : Type := {
  node_name : option string;
  params : gmap string (PyVal Obj);
  master_up : bool;
  rosout : list (Level * string);
  wakeups : nat
}.

Definition with_params (ps : gmap string (PyVal Obj)) (w : World) : World :=
  {| node_name := node_name w; params := ps; master_up := master_up w;
     rosout := rosout w; wakeups := wakeups w |}.

Definition with_record (l : Level) (msg : string) (w : World) : World :=
  {| node_name := node_name w; params := params w; master_up := master_up w;
     rosout := rosout w ++ [(l, msg)]; wakeups := wakeups w |}.

Definition unreachable {A} : Result A :=
  Raise (OtherError "ConnectionRefusedError" "master").

#[export] Instance Ref_Framework : rospy.Framework Obj World :=
  {| rospy.fw_init_node name anonymous disable_signals w :=
       match node_name w with
       | Some _ =>
           (Raise (OtherError "ROSException" "init_node() already called"), w)
       | None =>
           if String.eqb name ""
           then (Raise (OtherError "ValueError" "name must not be empty"), w)
           else (Ok tt,
                 {| node_name :=
                      Some ("/" +:+ name +:+ (if anonymous then "_1" else ""));
                    params := params w; master_up := master_up w;
                    rosout := rosout w; wakeups := wakeups w |})
       end;
     rospy.fw_get_name w := default "/unnamed" (node_name w);
     rospy.fw_loginfo := with_record INFO;
     rospy.fw_logwarn := with_record WARN;
     rospy.fw_get_param name w :=
       if master_up w
       then match params w !! name with
            | Some v => (Ok v, w)
            | None => (Raise (KeyError name), w)
            end
       else (unreachable, w);
     rospy.fw_set_param name value w :=
       if master_up w
       then (Ok tt, with_params (<[name := value]> (params w)) w)
       else (unreachable, w);
     rospy.fw_is_shutdown w := Nat.eqb (wakeups w) 0;
     rospy.fw_spin w :=
       match node_name w with
       | None => (Raise (OtherError "ROSInitException" "call init_node() first"), w)
       | Some _ =>
           (Ok tt,
            {| node_name := node_name w; params := params w;
               master_up := master_up w; rosout := rosout w;
               wakeups := Nat.pred (wakeups w) |})
       end |}.

(** A node [/talker] on a reachable master that holds [/rate]. *)
Definition world0 : World :=
  {| node_name := Some "/talker";
     params := {[ "/rate" := PyObj (OStr "fast") ]};
     master_up := true;
     rosout := [];
     wakeups := 2 |}.

Definition offline (w : World) : World :=
  {| node_name := node_name w; params := params w; master_up := false;
     rosout := rosout w; wakeups := wakeups w |}.

Definition fresh : World :=
  {| node_name := None; params := ∅; master_up := true;
     rosout := []; wakeups := 1 |}.

End RefRospy.

(** A variant of the reference framework whose parameter server refuses
    every write, for the runs where a write raises. *)

Module ReadOnlyRospy.

Definition refused {A} : Result A :=
  Raise (OtherError "ROSException" "parameter server is read-only").

Definition ReadOnly_Framework : rospy.Framework RefRospy.Obj RefRospy.World :=
  {| rospy.fw_init_node := rospy.fw_init_node (Framework := RefRospy.Ref_Framework);
     rospy.fw_get_name := rospy.fw_get_name (Framework := RefRospy.Ref_Framework);
     rospy.fw_loginfo := rospy.fw_loginfo (Framework := RefRospy.Ref_Framework);
     rospy.fw_logwarn := rospy.fw_logwarn (Framework := RefRospy.Ref_Framework);
     rospy.fw_get_param := rospy.fw_get_param (Framework := RefRospy.Ref_Framework);
     rospy.fw_set_param name value w := (refused, w);
     rospy.fw_is_shutdown := rospy.fw_is_shutdown (Framework := RefRospy.Ref_Framework);
     rospy.fw_spin := rospy.fw_spin (Framework := RefRospy.Ref_Framework) |}.

End ReadOnlyRospy.

(** ** Strings *)

Lemma append_cons (c : ascii) (s t : string) :
  String c s +:+ t = String c (s +:+ t).
Proof. reflexivity. Qed.

Lemma append_empty_r (s : string) : s +:+ "" = s.
Proof.
  induction s as [|c s IH]; [reflexivity |].
  now rewrite append_cons, IH.
Qed.

Lemma format_braces (s : string) : format "{}" [s] = s.
Proof. change (format "{}" [s]) with (s +:+ ""). apply append_empty_r. Qed.

Lemma str_take_length (n : nat) (s : string) :
  (n <= String.length s)%nat -> String.length (str_take n s) = n.
Proof.
  revert s. induction n as [|n IH]; intros [|c s] Hn; simpl in *; try lia.
  f_equal. apply IH. lia.
Qed.

Lemma str_take_prefix (n : nat) (s : string) :
  exists rest, s = str_take n s +:+ rest.
Proof.
  revert s. induction n as [|n IH]; intros s.
  - exists s. reflexivity.
  - destruct s as [|c s]; [exists ""; reflexivity |].
    destruct (IH s) as [rest Hrest]. exists rest.
    cbn [str_take]. now rewrite append_cons, <- Hrest.
Qed.

Lemma py_slice_to_first (s : string) (limit : Z) :
  0 < limit < len s ->
  len (py_slice_to s limit) = limit /\
  exists rest, s = py_slice_to s limit +:+ rest.
Proof.
  intros [Hpos Hlt]. unfold py_slice_to.
  destruct (limit <? 0) eqn:E; [apply Z.ltb_lt in E; lia |].
  split; [| apply str_take_prefix].
  unfold len in *. rewrite str_take_length; lia.
Qed.

(** ** The parameter accessors *)

Section GetParam.
Context {Obj W : Type} `{PyObject Obj} `{rospy.Framework Obj W}.

Lemma get_param_unfold_missing name default verbose limit (w w1 : W) k :
  rospy.fw_get_param name w = (Raise (KeyError k), w1) ->
  Node.get_param name default verbose limit w =
    match default with
    | PyNone =>
        (Ok default,
         rospy.fw_logwarn (no_default_warning (rospy.fw_get_name w1) name) w1,
         [rospy.Ev (rospy.CGetParam name) (rospy.RRaised (KeyError k));
          rospy.Ev rospy.CGetName (rospy.RStr (rospy.fw_get_name w1));
          rospy.Ev (rospy.CLogWarn
                      (no_default_warning (rospy.fw_get_name w1) name))
                   rospy.RUnit])
    | PyObj _ =>
        match rospy.fw_set_param name default w1 with
        | (Ok _, w2) =>
            (Ok default,
             rospy.fw_logwarn
               (default_warning (rospy.fw_get_name w2) name (str default)) w2,
             [rospy.Ev (rospy.CGetParam name) (rospy.RRaised (KeyError k));
              rospy.Ev (rospy.CSetParam name default) rospy.RUnit;
              rospy.Ev rospy.CGetName (rospy.RStr (rospy.fw_get_name w2));
              rospy.Ev (rospy.CLogWarn
                          (default_warning (rospy.fw_get_name w2) name
                                           (str default)))
                       rospy.RUnit])
        | (Raise e, w2) =>
            (Raise e, w2,
             [rospy.Ev (rospy.CGetParam name) (rospy.RRaised (KeyError k));
              rospy.Ev (rospy.CSetParam name default) (rospy.RRaised e)])
        end
    end.
Proof.
  intros Hget.
  unfold Node.get_param, rospy.bind, rospy.try_except_else, rospy.get_param.
  rewrite Hget. cbn [is_KeyError rospy.reply_of].
  destruct default as [|d].
  - reflexivity.
  - unfold rospy.set_param.
    destruct (rospy.fw_set_param name (PyObj d) w1) as [[[]|e] w2]; reflexivity.
Qed.

Lemma get_param_unfold_present name default verbose limit (w w1 : W) v :
  rospy.fw_get_param name w = (Ok v, w1) ->
  Node.get_param name default verbose limit w =
    if verbose
    then (Ok v,
          rospy.fw_loginfo
            (value_line (rospy.fw_get_name w1) name (shown limit (str v))) w1,
          [rospy.Ev (rospy.CGetParam name) (rospy.RVal v);
           rospy.Ev rospy.CGetName (rospy.RStr (rospy.fw_get_name w1));
           rospy.Ev (rospy.CLogInfo
                       (value_line (rospy.fw_get_name w1) name
                                   (shown limit (str v))))
                    rospy.RUnit])
    else (Ok v, w1, [rospy.Ev (rospy.CGetParam name) (rospy.RVal v)]).
Proof.
  intros Hget.
  unfold Node.get_param, rospy.bind, rospy.try_except_else, rospy.get_param.
  rewrite Hget, format_braces. cbn [rospy.reply_of].
  destruct verbose; reflexivity.
Qed.

Lemma get_param_unfold_error name default verbose limit (w w1 : W) e :
  rospy.fw_get_param name w = (Raise e, w1) ->
  is_KeyError e = false ->
  Node.get_param name default verbose limit w =
    (Raise e, w1, [rospy.Ev (rospy.CGetParam name) (rospy.RRaised e)]).
Proof.
  intros Hget He.
  unfold Node.get_param, rospy.bind, rospy.try_except_else, rospy.get_param.
  rewrite Hget, He. reflexivity.
Qed.

(** C1: when the lookup of [name] raises [KeyError] and the default [d] is
    not [None], [get_param] writes [d] to the parameter server under
    [name] -- its one write is [set_param(name, d)], issued right after
    the lookup, and the world it leaves is the one that write left, with
    the warning logged on top -- and returns [d]. *)
Theorem get_param_missing_writes_and_returns_default
    name (d : Obj) verbose limit (w w1 w2 : W) k :
  rospy.fw_get_param name w = (Raise (KeyError k), w1) ->
  rospy.fw_set_param name (PyObj d) w1 = (Ok tt, w2) ->
  let out := Node.get_param name (PyObj d) verbose limit w in
  result_of out = Ok (PyObj d) /\
  writes (trace_of out) = [(name, PyObj d)] /\
  world_of out =
    rospy.fw_logwarn
      (default_warning (rospy.fw_get_name w2) name (obj_str d)) w2 /\
  trace_of out =
    [rospy.Ev (rospy.CGetParam name) (rospy.RRaised (KeyError k));
     rospy.Ev (rospy.CSetParam name (PyObj d)) rospy.RUnit;
     rospy.Ev rospy.CGetName (rospy.RStr (rospy.fw_get_name w2));
     rospy.Ev (rospy.CLogWarn
                 (default_warning (rospy.fw_get_name w2) name (obj_str d)))
              rospy.RUnit].
Proof.
  intros Hget Hset out. subst out.
  rewrite (get_param_unfold_missing _ _ _ _ _ _ _ Hget), Hset.
  repeat split.
Qed.

(** C2: when the lookup of [name] returns the stored value [v],
    [get_param] returns exactly [v], whatever [default], [verbose] and
    [limit] are. *)
Theorem get_param_present_returns_stored
    name default verbose limit (w w1 : W) (v : PyVal Obj) :
  rospy.fw_get_param name w = (Ok v, w1) ->
  result_of (Node.get_param name default verbose limit w) = Ok v.
Proof.
  intros Hget. rewrite (get_param_unfold_present _ _ _ _ _ _ _ Hget).
  destruct verbose; reflexivity.
Qed.

(** C3: when the lookup of [name] raises [KeyError] and the default is
    [None], [get_param] returns [None] and writes nothing: its trace holds
    no [set_param] call, only the lookup and the warning, so the world it
    leaves is the one the failed lookup left, with the warning logged. *)
Theorem get_param_missing_no_default
    name verbose limit (w w1 : W) k :
  rospy.fw_get_param name w = (Raise (KeyError k), w1) ->
  let out := Node.get_param name PyNone verbose limit w in
  result_of out = Ok PyNone /\
  writes (trace_of out) = [] /\
  filter is_param_call (trace_of out) =
    [rospy.Ev (rospy.CGetParam name) (rospy.RRaised (KeyError k))] /\
  world_of out =
    rospy.fw_logwarn (no_default_warning (rospy.fw_get_name w1) name) w1.
Proof.
  intros Hget out. subst out.
  rewrite (get_param_unfold_missing _ _ _ _ _ _ _ Hget).
  repeat split.
Qed.
End GetParam.

Section Accessors.
Context {Obj W : Type} `{PyObject Obj} `{rospy.Framework Obj W}.

Lemma set_param_unfold name (value : PyVal Obj) verbose limit (w : W) :
  Node.set_param name value verbose limit w =
    match rospy.fw_set_param name value w with
    | (Ok _, w1) =>
        (Ok tt,
         rospy.fw_loginfo
           (value_line (rospy.fw_get_name w1) name (shown limit (str value))) w1,
         [rospy.Ev (rospy.CSetParam name value) rospy.RUnit;
          rospy.Ev rospy.CGetName (rospy.RStr (rospy.fw_get_name w1));
          rospy.Ev (rospy.CLogInfo
                      (value_line (rospy.fw_get_name w1) name
                                  (shown limit (str value))))
                   rospy.RUnit])
    | (Raise e, w1) =>
        (Raise e, w1,
         [rospy.Ev (rospy.CSetParam name value) (rospy.RRaised e)])
    end.
Proof.
  unfold Node.set_param, rospy.bind, rospy.set_param.
  rewrite format_braces.
  destruct (rospy.fw_set_param name value w) as [[[]|e] w1]; reflexivity.
Qed.

Lemma shown_guarded (limit : Z) (s : string) :
  logged_as_guarded limit s (shown limit s).
Proof.
  unfold logged_as_guarded, shown. split.
  - intros [Hpos Hlt].
    destruct (py_slice_to_first s limit (conj Hpos Hlt)) as [Hlen [rest Hrest]].
    apply Z.ltb_lt in Hpos, Hlt. rewrite Hpos, Hlt. cbn [andb].
    exists (py_slice_to s limit), rest. auto.
  - intros [Hle | Hle].
    + apply Z.ltb_ge in Hle. now rewrite Hle.
    + apply Z.ltb_ge in Hle. rewrite Hle. now rewrite andb_false_r.
Qed.

(** C4, as amended: the value line that [set_param] logs, and the one
    that [get_param] logs for a value it found when [verbose] is true,
    shows the [str()] of the value cut to its first [limit] characters
    and followed by ["..."] when [limit > 0] and the text is longer than
    [limit]; it shows the text whole when the text is no longer than
    [limit], and also whenever [limit <= 0]. *)
Theorem logged_value_truncated_when_limit_positive
    name (value default : PyVal Obj) verbose limit (w w1 : W) :
  (rospy.fw_set_param name value w = (Ok tt, w1) ->
   exists text,
     info_messages (trace_of (Node.set_param name value verbose limit w)) =
       [value_line (rospy.fw_get_name w1) name text] /\
     logged_as_guarded limit (str value) text) /\
  (rospy.fw_get_param name w = (Ok value, w1) ->
   exists text,
     info_messages (trace_of (Node.get_param name default true limit w)) =
       [value_line (rospy.fw_get_name w1) name text] /\
     logged_as_guarded limit (str value) text).
Proof.
  split; intros Hcall; exists (shown limit (str value));
    (split; [| apply shown_guarded]).
  - rewrite set_param_unfold, Hcall. reflexivity.
  - rewrite (get_param_unfold_present _ _ _ _ _ _ _ Hcall). reflexivity.
Qed.

(** C5: [set_param] writes exactly the value it is given -- its one write
    is [set_param(name, value)], whatever [limit] and [verbose] are, and
    when that write returns, the world left is the one it left, with the
    value line logged -- and [get_param] returns the value it found as it
    is, whatever was cut from the logged text. *)
Theorem set_param_writes_value_get_param_returns_value
    name (value default : PyVal Obj) verbose limit (w w1 : W) :
  writes (trace_of (Node.set_param name value verbose limit w)) =
    [(name, value)] /\
  (rospy.fw_set_param name value w = (Ok tt, w1) ->
   result_of (Node.set_param name value verbose limit w) = Ok tt /\
   world_of (Node.set_param name value verbose limit w) =
     rospy.fw_loginfo
       (value_line (rospy.fw_get_name w1) name (shown limit (str value))) w1) /\
  (rospy.fw_get_param name w = (Ok value, w1) ->
   result_of (Node.get_param name default verbose limit w) = Ok value /\
   writes (trace_of (Node.get_param name default verbose limit w)) = []).
Proof.
  split; [| split].
  - rewrite set_param_unfold.
    destruct (rospy.fw_set_param name value w) as [[[]|e] w']; reflexivity.
  - intros Hset. rewrite set_param_unfold, Hset. split; reflexivity.
  - intros Hget. rewrite (get_param_unfold_present _ _ _ _ _ _ _ Hget).
    destruct verbose; split; reflexivity.
Qed.

(** C9: [set_param] never consults [verbose]: the call is the same for
    either value of it, and whenever the write returns, the value line is
    logged at level info -- with [verbose] false as with [verbose] true. *)
Theorem set_param_logs_whatever_verbose
    name (value : PyVal Obj) verbose verbose' limit (w w1 : W) :
  Node.set_param name value verbose limit w =
    Node.set_param name value verbose' limit w /\
  (rospy.fw_set_param name value w = (Ok tt, w1) ->
   info_messages (trace_of (Node.set_param name value verbose limit w)) =
     [value_line (rospy.fw_get_name w1) name (shown limit (str value))]).
Proof.
  split; [reflexivity |].
  intros Hset. rewrite set_param_unfold, Hset. reflexivity.
Qed.

(** C10: the result of [get_param] and its calls on the parameter server
    do not depend on [verbose] and [limit]: two calls from the same world
    with the same [name] and [default] return the same, make the same
    parameter calls with the same replies, and leave worlds that agree on
    everything logging does not touch. *)
Theorem get_param_independent_of_verbose_and_limit
    name (default : PyVal Obj) verbose limit verbose' limit' (w : W) :
  let out := Node.get_param name default verbose limit w in
  let out' := Node.get_param name default verbose' limit' w in
  result_of out = result_of out' /\
  writes (trace_of out) = writes (trace_of out') /\
  filter is_param_call (trace_of out) = filter is_param_call (trace_of out') /\
  forall (S : Type) (store : W -> S),
    (forall msg w0, store (rospy.fw_loginfo msg w0) = store w0) ->
    store (world_of out) = store (world_of out').
Proof.
  intros out out'. subst out out'.
  destruct (rospy.fw_get_param name w) as [[v|e] w1] eqn:Hget.
  - rewrite !(get_param_unfold_present _ _ _ _ _ _ _ Hget).
    repeat split; try (destruct verbose, verbose'; reflexivity).
    intros S store Hlog.
    destruct verbose, verbose'; cbn [world_of fst snd];
      rewrite ?Hlog; reflexivity.
  - destruct e as [k | cls arg].
    + rewrite !(get_param_unfold_missing _ _ _ _ _ _ _ Hget).
      repeat split.
    + rewrite !(get_param_unfold_error _ _ _ _ _ _ _ Hget eq_refl).
      repeat split.
Qed.
End Accessors.

(** ** The life cycle: [__init__] and [run] *)

Section LifeCycle.
Context {Obj W : Type} `{PyObject Obj} `{rospy.Framework Obj W}.

Lemma init_unfold name anonymous disable_signals (w : W) :
  Node.__init__ name anonymous disable_signals w =
    match rospy.fw_init_node name anonymous disable_signals w with
    | (Ok _, w1) =>
        (Ok tt,
         rospy.fw_loginfo
           (format "[{}] Initialized." [rospy.fw_get_name w1]) w1,
         [rospy.Ev (rospy.CInitNode name anonymous disable_signals) rospy.RUnit;
          rospy.Ev rospy.CGetName (rospy.RStr (rospy.fw_get_name w1));
          rospy.Ev (rospy.CLogInfo
                      (format "[{}] Initialized." [rospy.fw_get_name w1]))
                   rospy.RUnit])
    | (Raise e, w1) =>
        (Raise e, w1,
         [rospy.Ev (rospy.CInitNode name anonymous disable_signals)
                   (rospy.RRaised e)])
    end.
Proof.
  unfold Node.__init__, rospy.bind, rospy.init_node.
  destruct (rospy.fw_init_node name anonymous disable_signals w)
    as [[[]|e] w1]; reflexivity.
Qed.

(** C6: the constructor calls the registration primitive first, with
    exactly the [name], [anonymous] and [disable_signals] it was given,
    whatever they are; when the registration returns it then logs one
    info message, and when the registration raises it logs nothing. *)
Theorem init_registers_with_same_arguments_then_logs
    name anonymous disable_signals (w : W) :
  (exists reply rest,
     trace_of (Node.__init__ name anonymous disable_signals w) =
       rospy.Ev (rospy.CInitNode name anonymous disable_signals) reply :: rest) /\
  (forall w1,
     rospy.fw_init_node name anonymous disable_signals w = (Ok tt, w1) ->
     Node.__init__ name anonymous disable_signals w =
       (Ok tt,
        rospy.fw_loginfo (format "[{}] Initialized." [rospy.fw_get_name w1]) w1,
        [rospy.Ev (rospy.CInitNode name anonymous disable_signals) rospy.RUnit;
         rospy.Ev rospy.CGetName (rospy.RStr (rospy.fw_get_name w1));
         rospy.Ev (rospy.CLogInfo
                     (format "[{}] Initialized." [rospy.fw_get_name w1]))
                  rospy.RUnit])) /\
  (forall e w1,
     rospy.fw_init_node name anonymous disable_signals w = (Raise e, w1) ->
     info_messages (trace_of (Node.__init__ name anonymous disable_signals w))
       = []).
Proof.
  rewrite init_unfold.
  destruct (rospy.fw_init_node name anonymous disable_signals w)
    as [[[]|e] w1].
  - split; [eexists; eexists; reflexivity |].
    split; [intros w' [= <-]; reflexivity | intros e w' [=]].
  - split; [eexists; eexists; reflexivity |].
    split; [intros w' [=] | intros e' w' _; reflexivity].
Qed.

Lemma wait_loop_step fuel (w : W) :
  wait_loop (S fuel) w =
    if rospy.fw_is_shutdown w
    then Some (Ok tt, w, [rospy.Ev rospy.CIsShutdown (rospy.RBool true)])
    else match rospy.fw_spin w with
         | (Ok _, w1) =>
             match wait_loop fuel w1 with
             | Some (r, w2, t) => Some (r, w2, turn ++ t)
             | None => None
             end
         | (Raise e, w1) =>
             Some (Raise e, w1,
                   [rospy.Ev rospy.CIsShutdown (rospy.RBool false);
                    rospy.Ev rospy.CSpin (rospy.RRaised e)])
         end.
Proof.
  unfold wait_loop. cbn [rospy.while].
  unfold rospy.pbind at 1, rospy.lift at 1, rospy.bind, rospy.is_shutdown,
    rospy.ret.
  destruct (rospy.fw_is_shutdown w); cbn [negb]; [reflexivity |].
  unfold rospy.pbind at 1, rospy.lift at 1, rospy.spin.
  destruct (rospy.fw_spin w) as [[[]|e] w1]; [| reflexivity].
  cbn [rospy.reply_of].
  destruct (rospy.while fuel _ _ w1) as [[[r w2] t]|]; reflexivity.
Qed.

Lemma run_unfold fuel (w : W) :
  Node.run fuel w =
    match wait_loop fuel w with
    | Some (Ok _, w1, t) =>
        Some (Ok tt,
              rospy.fw_loginfo
                (format "[{}] Shutting down..." [rospy.fw_get_name w1]) w1,
              t ++ [rospy.Ev rospy.CGetName (rospy.RStr (rospy.fw_get_name w1));
                    rospy.Ev (rospy.CLogInfo
                                (format "[{}] Shutting down..."
                                        [rospy.fw_get_name w1]))
                             rospy.RUnit])
    | Some (Raise e, w1, t) => Some (Raise e, w1, t)
    | None => None
    end.
Proof.
  unfold Node.run, rospy.pbind. fold (wait_loop fuel).
  destruct (wait_loop fuel w) as [[[[[]|e] w1] t]|]; reflexivity.
Qed.

Lemma info_messages_turns n (t : list (rospy.Event Obj)) :
  info_messages (turns n ++ t) = info_messages t.
Proof. induction n as [|n IH]; [reflexivity | exact IH]. Qed.

(** The loop, once it ends, ended in one of two ways. *)
Lemma wait_loop_ends fuel : forall (w w' : W) r t,
  wait_loop fuel w = Some (r, w', t) ->
  (exists n, spins n w w' /\ rospy.fw_is_shutdown w' = true /\ r = Ok tt /\
             t = turns n ++ [rospy.Ev rospy.CIsShutdown (rospy.RBool true)]) \/
  (exists n wn e, spins n w wn /\ rospy.fw_is_shutdown wn = false /\
                  rospy.fw_spin wn = (Raise e, w') /\ r = Raise e /\
                  t = turns n ++
                      [rospy.Ev rospy.CIsShutdown (rospy.RBool false);
                       rospy.Ev rospy.CSpin (rospy.RRaised e)]).
Proof.
  induction fuel as [|fuel IH]; intros w w' r t Hrun; [discriminate |].
  rewrite wait_loop_step in Hrun.
  destruct (rospy.fw_is_shutdown w) eqn:Hdown.
  - injection Hrun as <- <- <-. left. exists O.
    repeat split; [constructor | assumption].
  - destruct (rospy.fw_spin w) as [[[]|e] w1] eqn:Hspin.
    + destruct (wait_loop fuel w1) as [[[r1 w2] t1]|] eqn:Hrest;
        [| discriminate].
      injection Hrun as <- <- <-.
      destruct (IH _ _ _ _ Hrest) as [(n & Hn & Hd & Hr & Ht)
                                    | (n & wn & e & Hn & Hd & Hs & Hr & Ht)].
      * left. exists (S n). subst t1.
        repeat split; [econstructor; eassumption | assumption | assumption].
      * right. exists (S n), wn, e. subst t1.
        repeat split; [econstructor; eassumption | assumption..].
    + injection Hrun as <- <- <-. right. exists O, w, e.
      repeat split; [constructor | assumption | assumption].
Qed.

(** With more fuel than turns, the loop ends when the flag comes up. *)
Lemma wait_loop_exits n : forall (w w' : W) fuel,
  spins n w w' ->
  rospy.fw_is_shutdown w' = true ->
  (n < fuel)%nat ->
  wait_loop fuel w =
    Some (Ok tt, w',
          turns n ++ [rospy.Ev rospy.CIsShutdown (rospy.RBool true)]).
Proof.
  induction n as [|n IH]; intros w w' fuel Hspins Hdown Hfuel;
    (destruct fuel as [|fuel]; [lia |]); rewrite wait_loop_step;
    inversion Hspins; subst.
  - rewrite Hdown. reflexivity.
  - rewrite H2, H3.
    rewrite (IH _ _ fuel H4 Hdown) by lia. reflexivity.
Qed.

(** While the flag is down and [spin] returns, the loop goes on. *)
Lemma wait_loop_goes_on n : forall (w w' : W) fuel,
  spins n w w' ->
  (fuel <= n)%nat ->
  wait_loop fuel w = None.
Proof.
  induction n as [|n IH]; intros w w' fuel Hspins Hfuel;
    (destruct fuel as [|fuel]; [reflexivity |]); [lia |].
  rewrite wait_loop_step.
  inversion Hspins as [| n' w0 w1 w2 Hflag Hspin Hrest]; subst.
  rewrite Hflag, Hspin. rewrite (IH _ _ fuel Hrest) by lia. reflexivity.
Qed.

(** C8: [run] leaves its loop, normally, only on a test that saw the
    shutdown flag true: until then each test that saw it false was
    followed by a call of [spin], and only after that last test does it
    log the shutdown message.  When the flag comes up after [n] turns,
    [run] does return, given fuel for [n + 1] tests; and for as long as
    the flag is seen false and [spin] returns, [run] has not returned.
    The one other way out is an exception of [spin], raised at a turn
    where the flag was seen false: it ends [run] with no message logged. *)
Theorem run_waits_until_shutdown (w : W) :
  (forall fuel w' t,
     Node.run fuel w = Some (Ok tt, w', t) ->
     exists n wn,
       spins n w wn /\
       rospy.fw_is_shutdown wn = true /\
       w' = rospy.fw_loginfo
              (format "[{}] Shutting down..." [rospy.fw_get_name wn]) wn /\
       t = turns n ++
           [rospy.Ev rospy.CIsShutdown (rospy.RBool true);
            rospy.Ev rospy.CGetName (rospy.RStr (rospy.fw_get_name wn));
            rospy.Ev (rospy.CLogInfo
                        (format "[{}] Shutting down..." [rospy.fw_get_name wn]))
                     rospy.RUnit]) /\
  (forall n wn fuel,
     spins n w wn ->
     rospy.fw_is_shutdown wn = true ->
     (n < fuel)%nat ->
     Node.run fuel w =
       Some (Ok tt,
             rospy.fw_loginfo
               (format "[{}] Shutting down..." [rospy.fw_get_name wn]) wn,
             turns n ++
             [rospy.Ev rospy.CIsShutdown (rospy.RBool true);
              rospy.Ev rospy.CGetName (rospy.RStr (rospy.fw_get_name wn));
              rospy.Ev (rospy.CLogInfo
                          (format "[{}] Shutting down..."
                                  [rospy.fw_get_name wn]))
                       rospy.RUnit])) /\
  (forall n wn fuel,
     spins n w wn ->
     (fuel <= n)%nat ->
     Node.run fuel w = None) /\
  (forall fuel e w' t,
     Node.run fuel w = Some (Raise e, w', t) ->
     info_messages t = [] /\
     exists n wn,
       spins n w wn /\
       rospy.fw_is_shutdown wn = false /\
       rospy.fw_spin wn = (Raise e, w')).
Proof.
  split; [| split; [| split]].
  - intros fuel w' t Hrun. rewrite run_unfold in Hrun.
    destruct (wait_loop fuel w) as [[[[[]|e] w1] t1]|] eqn:Hloop;
      try discriminate.
    injection Hrun as <- <-.
    destruct (wait_loop_ends _ _ _ _ _ Hloop)
      as [(n & Hn & Hd & _ & Ht) | (n & wn & e & _ & _ & _ & Hr & _)];
      [| discriminate].
    exists n, w1. subst t1. rewrite <- app_assoc.
    repeat split; assumption.
  - intros n wn fuel Hspins Hdown Hfuel.
    rewrite run_unfold, (wait_loop_exits _ _ _ _ Hspins Hdown Hfuel).
    now rewrite <- app_assoc.
  - intros n wn fuel Hspins Hfuel.
    now rewrite run_unfold, (wait_loop_goes_on _ _ _ _ Hspins Hfuel).
  - intros fuel e w' t Hrun. rewrite run_unfold in Hrun.
    destruct (wait_loop fuel w) as [[[[[]|e1] w1] t1]|] eqn:Hloop;
      try discriminate.
    injection Hrun as <- <- <-.
    destruct (wait_loop_ends _ _ _ _ _ Hloop)
      as [(n & _ & _ & Hr & _) | (n & wn & e & Hn & Hd & Hs & Hr & ->)];
      [discriminate |].
    injection Hr as ->.
    split; [now rewrite info_messages_turns | exists n, wn; auto].
Qed.
End LifeCycle.

(** ** Exceptions *)

Section Exceptions.
Context {Obj W : Type} `{PyObject Obj} `{rospy.Framework Obj W}.

(** Closes [faithful] on an outcome whose trace is written out. *)
Ltac on_explicit_trace :=
  let ev := fresh "ev" in
  let e := fresh "e" in
  let Hin := fresh "Hin" in
  let Hrep := fresh "Hrep" in
  let Hh := fresh "Hh" in
  intros ev e Hin Hrep Hh; cbn in Hin;
  repeat (destruct Hin as [<- | Hin]; [cbn in Hrep, Hh |]);
  try contradiction; try discriminate;
  injection Hrep as <-;
  (split;
   [ reflexivity
   | first [ exists []; reflexivity
           | eexists (cons _ nil); reflexivity
           | eexists (cons _ (cons _ nil)); reflexivity ] ]).

Lemma faithful_ending {A} (x : Result A * W * list (rospy.Event Obj)) :
  faithful x -> faithful (ending x).
Proof.
  destruct x as [[[a|e0] w] t]; intros Hx ev e Hin Hrep Hh;
    destruct (Hx ev e Hin Hrep Hh) as [Hr Ht]; cbn in *;
    [discriminate | injection Hr as ->; auto].
Qed.

Lemma init_faithful name anonymous disable_signals (w : W) :
  faithful (Node.__init__ name anonymous disable_signals w).
Proof.
  rewrite init_unfold.
  destruct (rospy.fw_init_node name anonymous disable_signals w)
    as [[[]|e0] w1]; on_explicit_trace.
Qed.

Lemma set_param_faithful name (value : PyVal Obj) verbose limit (w : W) :
  faithful (Node.set_param name value verbose limit w).
Proof.
  rewrite set_param_unfold.
  destruct (rospy.fw_set_param name value w) as [[[]|e0] w1];
    on_explicit_trace.
Qed.

Lemma get_param_faithful name (default : PyVal Obj) verbose limit (w : W) :
  faithful (Node.get_param name default verbose limit w).
Proof.
  destruct (rospy.fw_get_param name w) as [[v|e0] w1] eqn:Hget.
  - rewrite (get_param_unfold_present _ _ _ _ _ _ _ Hget).
    destruct verbose; on_explicit_trace.
  - destruct e0 as [k | cls arg].
    + rewrite (get_param_unfold_missing _ _ _ _ _ _ _ Hget).
      destruct default as [|d]; [on_explicit_trace |].
      destruct (rospy.fw_set_param name (PyObj d) w1) as [[[]|e1] w2];
        on_explicit_trace.
    + rewrite (get_param_unfold_error _ _ _ _ _ _ _ Hget eq_refl).
      on_explicit_trace.
Qed.

Lemma turns_never_raise n (ev : rospy.Event Obj) e :
  In ev (turns n) -> rospy.ev_reply ev <> rospy.RRaised e.
Proof.
  induction n as [|n IH]; cbn; [contradiction |].
  intros [<- | [<- | Hin]]; [discriminate | discriminate | auto].
Qed.

Lemma run_faithful fuel (w w' : W) r t :
  Node.run fuel w = Some (r, w', t) -> faithful (r, w', t).
Proof.
  rewrite run_unfold.
  destruct (wait_loop fuel w) as [[[r1 w1] t1]|] eqn:Hloop; [| discriminate].
  destruct (wait_loop_ends _ _ _ _ _ Hloop)
    as [(n & _ & _ & -> & ->) | (n & wn & e0 & _ & _ & _ & -> & ->)];
    intros [= <- <- <-] ev e Hin Hrep Hh; cbn [trace_of result_of fst snd] in *.
  - rewrite !in_app_iff in Hin. cbn in Hin.
    destruct Hin as [[Hin | [<- | []]] | [<- | [<- | []]]];
      [exact (False_ind _ (turns_never_raise _ _ e Hin Hrep)) | discriminate..].
  - rewrite in_app_iff in Hin. cbn in Hin.
    destruct Hin as [Hin | [<- | [<- | []]]];
      [exact (False_ind _ (turns_never_raise _ _ e Hin Hrep)) | discriminate |].
    injection Hrep as <-. split; [reflexivity |].
    exists (turns n ++ [rospy.Ev rospy.CIsShutdown (rospy.RBool false)]).
    now rewrite <- app_assoc.
Qed.

(** An exception a framework call raised, seen from the calls made: the
    handled one apart, it is what the operation ended with, and the
    raising call is the last one. *)
Lemma raised_call_ends_operation
    (op : Op Obj) (w w' : W) r t (ev : rospy.Event Obj) e :
  perform op w = Some (r, w', t) ->
  In ev t ->
  rospy.ev_reply ev = rospy.RRaised e ->
  handled ev = false ->
  r = Raise e /\ exists t0, t = t0 ++ [ev].
Proof.
  intros Hop Hin Hrep Hh.
  assert (Hf : faithful (r, w', t)).
  { destruct op as [name a d | fuel | name default verbose limit
                   | name value verbose limit]; cbn [perform] in Hop.
    - injection Hop as Hop. rewrite <- Hop.
      apply faithful_ending, init_faithful.
    - now apply (run_faithful fuel w).
    - injection Hop as Hop. rewrite <- Hop.
      apply faithful_ending, get_param_faithful.
    - injection Hop as Hop. rewrite <- Hop.
      apply faithful_ending, set_param_faithful. }
  exact (Hf ev e Hin Hrep Hh).
Qed.

(** When [spin] raises at a turn, the loop ends there with that exception,
    given fuel to reach the turn. *)
Lemma wait_loop_raises n : forall (w wn w' : W) e fuel,
  spins n w wn ->
  rospy.fw_is_shutdown wn = false ->
  rospy.fw_spin wn = (Raise e, w') ->
  (n < fuel)%nat ->
  wait_loop fuel w =
    Some (Raise e, w',
          turns n ++ [rospy.Ev rospy.CIsShutdown (rospy.RBool false);
                      rospy.Ev rospy.CSpin (rospy.RRaised e)]).
Proof.
  induction n as [|n IH]; intros w wn w' e fuel Hspins Hdown Hraise Hfuel;
    (destruct fuel as [|fuel]; [lia |]); rewrite wait_loop_step;
    inversion Hspins as [| n' w0 w1 w2 Hflag Hspin Hrest]; subst.
  - rewrite Hdown, Hraise. reflexivity.
  - rewrite Hflag, Hspin.
    rewrite (IH _ _ _ _ fuel Hrest Hdown Hraise) by lia. reflexivity.
Qed.

(** C7: every exception a framework call raises reaches the caller as it
    is, a [KeyError] out of the lookup of [get_param] apart.  Call by
    call: when the registration raises [e], [__init__] ends with [e];
    when [spin] raises [e] at some turn, [run] ends with [e]; when the
    lookup raises an [e] that is no [KeyError], or the write of the
    default raises [e], [get_param] ends with [e]; when the write raises
    [e], [set_param] ends with [e] -- each time in the world the raising
    call left, that call being the last one made and nothing being
    logged.  And seen from the calls made: whatever the operation, an
    exception that any of its framework calls raised, the handled one
    apart, is the one it ended with. *)
Theorem framework_exceptions_propagate (w : W) (e : Exn) :
  (forall name anonymous disable_signals w1,
     rospy.fw_init_node name anonymous disable_signals w = (Raise e, w1) ->
     Node.__init__ name anonymous disable_signals w =
       (Raise e, w1,
        [rospy.Ev (rospy.CInitNode name anonymous disable_signals)
                  (rospy.RRaised e)])) /\
  (forall fuel n wn w1,
     spins n w wn ->
     rospy.fw_is_shutdown wn = false ->
     rospy.fw_spin wn = (Raise e, w1) ->
     (n < fuel)%nat ->
     Node.run fuel w =
       Some (Raise e, w1,
             turns n ++ [rospy.Ev rospy.CIsShutdown (rospy.RBool false);
                         rospy.Ev rospy.CSpin (rospy.RRaised e)])) /\
  (forall name (default : PyVal Obj) verbose limit w1,
     rospy.fw_get_param name w = (Raise e, w1) ->
     is_KeyError e = false ->
     Node.get_param name default verbose limit w =
       (Raise e, w1, [rospy.Ev (rospy.CGetParam name) (rospy.RRaised e)])) /\
  (forall name (d : Obj) verbose limit k w1 w2,
     rospy.fw_get_param name w = (Raise (KeyError k), w1) ->
     rospy.fw_set_param name (PyObj d) w1 = (Raise e, w2) ->
     Node.get_param name (PyObj d) verbose limit w =
       (Raise e, w2,
        [rospy.Ev (rospy.CGetParam name) (rospy.RRaised (KeyError k));
         rospy.Ev (rospy.CSetParam name (PyObj d)) (rospy.RRaised e)])) /\
  (forall name (value : PyVal Obj) verbose limit w1,
     rospy.fw_set_param name value w = (Raise e, w1) ->
     Node.set_param name value verbose limit w =
       (Raise e, w1,
        [rospy.Ev (rospy.CSetParam name value) (rospy.RRaised e)])) /\
  (forall (op : Op Obj) r w' t (ev : rospy.Event Obj),
     perform op w = Some (r, w', t) ->
     In ev t ->
     rospy.ev_reply ev = rospy.RRaised e ->
     handled ev = false ->
     r = Raise e /\ exists t0, t = t0 ++ [ev]).
Proof.
  repeat apply conj.
  - intros name anonymous disable_signals w1 Hinit.
    now rewrite init_unfold, Hinit.
  - intros fuel n wn w1 Hspins Hdown Hraise Hfuel.
    now rewrite run_unfold,
      (wait_loop_raises _ _ _ _ _ _ Hspins Hdown Hraise Hfuel).
  - intros name default verbose limit w1 Hget He.
    exact (get_param_unfold_error _ _ _ _ _ _ _ Hget He).
  - intros name d verbose limit k w1 w2 Hget Hset.
    now rewrite (get_param_unfold_missing _ _ _ _ _ _ _ Hget), Hset.
  - intros name value verbose limit w1 Hset.
    now rewrite set_param_unfold, Hset.
  - intros op r w' t ev. apply raised_call_ends_operation.
Qed.
End Exceptions.

(** ** Further properties of the accessors *)

Lemma len_append (a b : string) : len (a +:+ b) = len a + len b.
Proof.
  unfold len. induction a as [|c a IH]; [reflexivity |].
  rewrite append_cons. cbn [String.length]. lia.
Qed.

Lemma value_line_text (node name text : string) :
  value_line node name text = "[" +:+ node +:+ "] " +:+ name +:+ "=" +:+ text.
Proof.
  change (value_line node name text)
    with ("[" +:+ node +:+ "] " +:+ name +:+ "=" +:+ (text +:+ "")).
  now rewrite append_empty_r.
Qed.

Lemma default_warning_text (node name default : string) :
  default_warning node name default =
    "[" +:+ node +:+ "] Parameter '" +:+ name
      +:+ "' does not exist. Using default value '" +:+ default +:+ "'.".
Proof. reflexivity. Qed.

Lemma shown_length (limit : Z) (s : string) :
  len (shown limit s) =
    if ((0 <? limit) && (limit <? len s))%bool then limit + 3 else len s.
Proof.
  unfold shown.
  destruct ((0 <? limit) && (limit <? len s))%bool eqn:Hcut; [| reflexivity].
  apply andb_true_iff in Hcut as [Hpos Hlt].
  apply Z.ltb_lt in Hpos, Hlt.
  destruct (py_slice_to_first s limit (conj Hpos Hlt)) as [Hlen _].
  rewrite len_append, Hlen. reflexivity.
Qed.

Section MoreAccessors.
Context {Obj W : Type} `{PyObject Obj} `{rospy.Framework Obj W}.

(** [get_param] attempts at most one write, of its own [default] under its
    own [name], and attempts it exactly when the lookup raised [KeyError]
    and a default was given: never when the value was found, never when
    the lookup failed otherwise. *)
Theorem get_param_writes_only_missing_default
    name (default : PyVal Obj) verbose limit (w : W) :
  let t := trace_of (Node.get_param name default verbose limit w) in
  (writes t = [] \/ writes t = [(name, default)]) /\
  (writes t = [(name, default)] <->
   (exists k w1, rospy.fw_get_param name w = (Raise (KeyError k), w1)) /\
   default <> PyNone).
Proof.
  cbv zeta.
  destruct (rospy.fw_get_param name w) as [[v|e] w1] eqn:Hget.
  - rewrite (get_param_unfold_present _ _ _ _ _ _ _ Hget).
    destruct verbose; (split; [left; reflexivity |]);
      (split; [discriminate | intros [(k & w2 & [=]) _]]).
  - destruct e as [k | cls arg].
    + rewrite (get_param_unfold_missing _ _ _ _ _ _ _ Hget).
      destruct default as [|d].
      * split; [left; reflexivity |].
        split; [discriminate | intros [_ Hd]; now contradiction Hd].
      * destruct (rospy.fw_set_param name (PyObj d) w1) as [[[]|e1] w2];
          (split; [right; reflexivity |]);
          (split; [intros _; split; [now exists k, w1 | discriminate]
                  | reflexivity]).
    + rewrite (get_param_unfold_error _ _ _ _ _ _ _ Hget eq_refl).
      split; [left; reflexivity |].
      split; [discriminate | intros [(k & w2 & [=]) _]].
Qed.

(** The warning of the substituted default shows the default's text
    whole: [limit] does not cut it and [verbose] does not silence it, and
    no info line is logged beside it. *)
Theorem get_param_warning_shows_default_whole
    name (d : Obj) verbose limit (w w1 w2 : W) k :
  rospy.fw_get_param name w = (Raise (KeyError k), w1) ->
  rospy.fw_set_param name (PyObj d) w1 = (Ok tt, w2) ->
  let t := trace_of (Node.get_param name (PyObj d) verbose limit w) in
  warn_messages t =
    ["[" +:+ rospy.fw_get_name w2 +:+ "] Parameter '" +:+ name
       +:+ "' does not exist. Using default value '" +:+ obj_str d +:+ "'."] /\
  info_messages t = [].
Proof.
  intros Hget Hset. cbv zeta.
  rewrite (get_param_unfold_missing _ _ _ _ _ _ _ Hget), Hset.
  split; reflexivity.
Qed.

(** [get_param] logs at most one message.  An info line means the value
    was found and [verbose] was set; a warning means the lookup raised
    [KeyError] and the default is what is returned. *)
Theorem get_param_logs_at_most_once
    name (default : PyVal Obj) verbose limit (w : W) :
  let out := Node.get_param name default verbose limit w in
  (length (info_messages (trace_of out)) +
   length (warn_messages (trace_of out)) <= 1)%nat /\
  (info_messages (trace_of out) <> [] ->
   verbose = true /\
   exists v w1, rospy.fw_get_param name w = (Ok v, w1) /\
                result_of out = Ok v) /\
  (warn_messages (trace_of out) <> [] ->
   result_of out = Ok default /\
   exists k w1, rospy.fw_get_param name w = (Raise (KeyError k), w1)).
Proof.
  cbv zeta.
  destruct (rospy.fw_get_param name w) as [[v|e] w1] eqn:Hget.
  - rewrite (get_param_unfold_present _ _ _ _ _ _ _ Hget).
    destruct verbose; cbn.
    + split; [lia |]. split; [| intros []; reflexivity].
      intros _. split; [reflexivity | now exists v, w1].
    + split; [lia |]. split; intros []; reflexivity.
  - destruct e as [k | cls arg].
    + rewrite (get_param_unfold_missing _ _ _ _ _ _ _ Hget).
      destruct default as [|d].
      * cbn. split; [lia |]. split; [intros []; reflexivity |].
        intros _. split; [reflexivity | now exists k, w1].
      * destruct (rospy.fw_set_param name (PyObj d) w1) as [[[]|e1] w2]; cbn.
        -- split; [lia |]. split; [intros []; reflexivity |].
           intros _. split; [reflexivity | now exists k, w1].
        -- split; [lia |]. split; intros []; reflexivity.
    + rewrite (get_param_unfold_error _ _ _ _ _ _ _ Hget eq_refl). cbn.
      split; [lia |]. split; intros []; reflexivity.
Qed.

(** When the write of the default raises, [get_param] ends with the
    exception of the write, not the [KeyError] of the lookup, and the
    missing parameter goes unreported: no warning, no info line. *)
Theorem get_param_failed_write_logs_nothing
    name (d : Obj) verbose limit (w w1 w2 : W) k e :
  rospy.fw_get_param name w = (Raise (KeyError k), w1) ->
  rospy.fw_set_param name (PyObj d) w1 = (Raise e, w2) ->
  let out := Node.get_param name (PyObj d) verbose limit w in
  result_of out = Raise e /\
  world_of out = w2 /\
  warn_messages (trace_of out) = [] /\
  info_messages (trace_of out) = [].
Proof.
  intros Hget Hset. cbv zeta.
  rewrite (get_param_unfold_missing _ _ _ _ _ _ _ Hget), Hset.
  repeat split.
Qed.

(** A lookup that fails with anything but [KeyError] never yields the
    default, even when one is given: [get_param] ends with that exception
    after the one call, with nothing written or logged. *)
Theorem get_param_default_not_used_on_other_errors
    name (default : PyVal Obj) verbose limit (w w1 : W) e :
  rospy.fw_get_param name w = (Raise e, w1) ->
  is_KeyError e = false ->
  let out := Node.get_param name default verbose limit w in
  result_of out = Raise e /\
  result_of out <> Ok default /\
  world_of out = w1 /\
  trace_of out = [rospy.Ev (rospy.CGetParam name) (rospy.RRaised e)].
Proof.
  intros Hget He. cbv zeta.
  rewrite (get_param_unfold_error _ _ _ _ _ _ _ Hget He).
  repeat split. discriminate.
Qed.

(** With [verbose] false, and unless the lookup raises [KeyError],
    [get_param] is the framework's lookup and nothing more: the same
    result, the same world, the same single call. *)
Theorem get_param_quiet_is_lookup
    name (default : PyVal Obj) limit (w : W) :
  (forall k w1, rospy.fw_get_param name w <> (Raise (KeyError k), w1)) ->
  Node.get_param name default false limit w = rospy.get_param name w.
Proof.
  intros Hfound. unfold rospy.get_param.
  destruct (rospy.fw_get_param name w) as [[v|e] w1] eqn:Hget.
  - now rewrite (get_param_unfold_present _ _ _ _ _ _ _ Hget).
  - destruct e as [k | cls arg]; [now contradiction (Hfound k w1) |].
    now rewrite (get_param_unfold_error _ _ _ _ _ _ _ Hget eq_refl).
Qed.

(** [set_param] logs only once the write has returned: its info line is
    logged exactly when the framework's write returns, as the last call
    after that write; when the write raises nothing is logged and the
    call ends with the exception; and it never warns. *)
Theorem set_param_logs_iff_written
    name (value : PyVal Obj) verbose limit (w : W) :
  let out := Node.set_param name value verbose limit w in
  (info_messages (trace_of out) <> [] <->
   exists w1, rospy.fw_set_param name value w = (Ok tt, w1)) /\
  (forall w1,
     rospy.fw_set_param name value w = (Ok tt, w1) ->
     trace_of out =
       [rospy.Ev (rospy.CSetParam name value) rospy.RUnit;
        rospy.Ev rospy.CGetName (rospy.RStr (rospy.fw_get_name w1));
        rospy.Ev (rospy.CLogInfo
                    (value_line (rospy.fw_get_name w1) name
                                (shown limit (str value))))
                 rospy.RUnit]) /\
  (forall e w1,
     rospy.fw_set_param name value w = (Raise e, w1) ->
     result_of out = Raise e /\
     world_of out = w1 /\
     info_messages (trace_of out) = []) /\
  warn_messages (trace_of out) = [].
Proof.
  cbv zeta. rewrite set_param_unfold.
  destruct (rospy.fw_set_param name value w) as [[[]|e] w1].
  - split; [split; [intros _; now exists w1 | intros _; discriminate] |].
    split; [intros w2 [= <-]; reflexivity |].
    split; [intros e w2 [=] | reflexivity].
  - split; [split; [intros Hlog; now contradiction Hlog
                   | intros [w2 [=]]] |].
    split; [intros w2 [=] |].
    split; [intros e' w2 [= <- <-]; repeat split | reflexivity].
Qed.

(** The logged text of a value is bounded by a positive [limit], in
    [set_param] and in a verbose [get_param] alike: it has [limit + 3]
    characters when it was cut and is the value's own text otherwise, so
    never more than [limit + 3].  A cut text is longer than the text it
    stands for when that has [limit + 1] or [limit + 2] characters. *)
Theorem logged_text_length
    name (value default : PyVal Obj) verbose limit (w w1 : W) :
  0 < limit ->
  exists text,
    (rospy.fw_set_param name value w = (Ok tt, w1) ->
     info_messages (trace_of (Node.set_param name value verbose limit w)) =
       ["[" +:+ rospy.fw_get_name w1 +:+ "] " +:+ name +:+ "=" +:+ text]) /\
    (rospy.fw_get_param name w = (Ok value, w1) ->
     info_messages (trace_of (Node.get_param name default true limit w)) =
       ["[" +:+ rospy.fw_get_name w1 +:+ "] " +:+ name +:+ "=" +:+ text]) /\
    len text <= limit + 3 /\
    (limit < len (str value) -> len text = limit + 3) /\
    (limit < len (str value) < limit + 3 -> len (str value) < len text).
Proof.
  intros Hpos. exists (shown limit (str value)).
  split; [| split].
  - intros Hset. rewrite set_param_unfold, Hset, value_line_text. reflexivity.
  - intros Hget.
    rewrite (get_param_unfold_present _ _ _ _ _ _ _ Hget), value_line_text.
    reflexivity.
  - rewrite shown_length.
    apply Z.ltb_lt in Hpos. rewrite Hpos. cbn [andb].
    destruct (limit <? len (str value)) eqn:Hlt.
    + repeat split; lia.
    + apply Z.ltb_ge in Hlt. repeat split; lia.
Qed.
End MoreAccessors.

(** ** How the operations compose *)

Section Composition.
Context {Obj W : Type} `{PyObject Obj} `{rospy.Framework Obj W}.

(** Round trip: on a parameter server that reads back what was written
    under [name], and that logging does not disturb, [get_param] after
    [set_param] returns the value that was set -- whole, whatever was cut
    from the logged lines -- and writes nothing. *)
Theorem get_param_after_set_param
    name (value default : PyVal Obj) verbose limit verbose' limit' (w w1 : W) :
  (forall w0 w0', rospy.fw_set_param name value w0 = (Ok tt, w0') ->
                  fst (rospy.fw_get_param name w0') = Ok value) ->
  (forall msg w0, fst (rospy.fw_get_param name (rospy.fw_loginfo msg w0)) =
                  fst (rospy.fw_get_param name w0)) ->
  rospy.fw_set_param name value w = (Ok tt, w1) ->
  let after := world_of (Node.set_param name value verbose limit w) in
  let out := Node.get_param name default verbose' limit' after in
  result_of out = Ok value /\ writes (trace_of out) = [].
Proof.
  intros Hread Hlog Hset. cbv zeta.
  rewrite set_param_unfold, Hset. cbn [world_of fst snd].
  match goal with
  | |- context [rospy.fw_loginfo ?msg w1] =>
      assert (Hback : fst (rospy.fw_get_param name (rospy.fw_loginfo msg w1)) =
                      Ok value) by (rewrite Hlog; exact (Hread _ _ Hset));
      destruct (rospy.fw_get_param name (rospy.fw_loginfo msg w1))
        as [r w2] eqn:Hget
  end.
  cbn [fst] in Hback. subst r.
  rewrite (get_param_unfold_present _ _ _ _ _ _ _ Hget).
  destruct verbose'; split; reflexivity.
Qed.

(** The default is substituted once: on such a parameter server, after a
    [get_param] that found [name] missing and wrote the default, a second
    [get_param] with any other default finds the first one, returns it,
    writes nothing and warns of nothing. *)
Theorem get_param_default_persists
    name (d : Obj) (default' : PyVal Obj) verbose limit verbose' limit'
    (w w1 w2 : W) k :
  (forall w0 w0', rospy.fw_set_param name (PyObj d) w0 = (Ok tt, w0') ->
                  fst (rospy.fw_get_param name w0') = Ok (PyObj d)) ->
  (forall msg w0, fst (rospy.fw_get_param name (rospy.fw_logwarn msg w0)) =
                  fst (rospy.fw_get_param name w0)) ->
  rospy.fw_get_param name w = (Raise (KeyError k), w1) ->
  rospy.fw_set_param name (PyObj d) w1 = (Ok tt, w2) ->
  let after := world_of (Node.get_param name (PyObj d) verbose limit w) in
  let out := Node.get_param name default' verbose' limit' after in
  result_of out = Ok (PyObj d) /\
  writes (trace_of out) = [] /\
  warn_messages (trace_of out) = [].
Proof.
  intros Hread Hlog Hget Hset. cbv zeta.
  rewrite (get_param_unfold_missing _ _ _ _ _ _ _ Hget), Hset.
  cbn [world_of fst snd].
  match goal with
  | |- context [rospy.fw_logwarn ?msg w2] =>
      assert (Hback : fst (rospy.fw_get_param name (rospy.fw_logwarn msg w2)) =
                      Ok (PyObj d)) by (rewrite Hlog; exact (Hread _ _ Hset));
      destruct (rospy.fw_get_param name (rospy.fw_logwarn msg w2))
        as [r w3] eqn:Hget'
  end.
  cbn [fst] in Hback. subst r.
  rewrite (get_param_unfold_present _ _ _ _ _ _ _ Hget').
  destruct verbose'; repeat split.
Qed.

Lemma turns_no_param_call n :
  Forall (fun ev : rospy.Event Obj => is_param_call ev = false) (turns n).
Proof.
  induction n as [|n IH]; [constructor |].
  cbn. repeat constructor. exact IH.
Qed.

Lemma warn_messages_turns n (t : list (rospy.Event Obj)) :
  warn_messages (turns n ++ t) = warn_messages t.
Proof. induction n as [|n IH]; [reflexivity | exact IH]. Qed.

(** The life cycle keeps off the parameter server: neither [__init__] nor
    [run], however it ends, makes a parameter call or logs a warning, and
    each logs at most one info line. *)
Theorem life_cycle_never_touches_parameters (w : W) :
  (forall name anonymous disable_signals,
     let t := trace_of (Node.__init__ name anonymous disable_signals w) in
     Forall (fun ev => is_param_call ev = false) t /\
     warn_messages t = [] /\
     (length (info_messages t) <= 1)%nat) /\
  (forall fuel r w' t,
     Node.run fuel w = Some (r, w', t) ->
     Forall (fun ev => is_param_call ev = false) t /\
     warn_messages t = [] /\
     (length (info_messages t) <= 1)%nat).
Proof.
  split.
  - intros name anonymous disable_signals. cbv zeta. rewrite init_unfold.
    destruct (rospy.fw_init_node name anonymous disable_signals w)
      as [[[]|e] w1]; cbn; (split; [repeat constructor | split; [reflexivity | lia]]).
  - intros fuel r w' t Hrun. rewrite run_unfold in Hrun.
    destruct (wait_loop fuel w) as [[[r1 w1] t1]|] eqn:Hloop; [| discriminate].
    destruct (wait_loop_ends _ _ _ _ _ Hloop)
      as [(n & _ & _ & -> & ->) | (n & wn & e & _ & _ & _ & -> & ->)];
      injection Hrun as <- <- <-.
    + rewrite <- app_assoc, warn_messages_turns, info_messages_turns.
      split; [| split; [reflexivity | cbn; lia]].
      apply Forall_app. split; [apply turns_no_param_call | repeat constructor].
    + rewrite warn_messages_turns, info_messages_turns.
      split; [| split; [reflexivity | cbn; lia]].
      apply Forall_app. split; [apply turns_no_param_call | repeat constructor].
Qed.
End Composition.

(** ** On the reference framework *)

Import RefRospy.

(** C1 at work: [/gain] is not set, the default is written and returned. *)
Lemma get_param_missing_writes_and_returns_default_witness :
  rospy.fw_get_param "/gain" world0 = (Raise (KeyError "/gain"), world0) /\
  result_of (Node.get_param "/gain" (PyObj (OStr "high")) true 400 world0) =
    Ok (PyObj (OStr "high")) /\
  params (world_of (Node.get_param "/gain" (PyObj (OStr "high")) true 400 world0))
    !! "/gain" = Some (PyObj (OStr "high")).
Proof.
  assert (Hget : rospy.fw_get_param "/gain" world0 =
                 (Raise (KeyError "/gain"), world0)) by reflexivity.
  assert (Hset : rospy.fw_set_param "/gain" (PyObj (OStr "high")) world0 =
                 (Ok tt,
                  with_params (<["/gain" := PyObj (OStr "high")]> (params world0))
                              world0)) by reflexivity.
  destruct (get_param_missing_writes_and_returns_default
              "/gain" (OStr "high") true 400 world0 world0 _ "/gain" Hget Hset)
    as (Hr & _ & Hw & _).
  split; [exact Hget |].
  split; [exact Hr | rewrite Hw; reflexivity].
Defined.

(** C2 at work: [/rate] is set, and comes back as stored. *)
Lemma get_param_present_returns_stored_witness :
  params world0 !! "/rate" = Some (PyObj (OStr "fast")) /\
  result_of (Node.get_param "/rate" (PyObj (OStr "slow")) true 2 world0) =
    Ok (PyObj (OStr "fast")).
Proof.
  assert (Hget : rospy.fw_get_param "/rate" world0 =
                 (Ok (PyObj (OStr "fast")), world0)) by reflexivity.
  split; [reflexivity |].
  exact (get_param_present_returns_stored
           "/rate" (PyObj (OStr "slow")) true 2 world0 world0 _ Hget).
Defined.

(** C3 at work: [/gain] is not set and no default is given. *)
Lemma get_param_missing_no_default_witness :
  result_of (Node.get_param "/gain" PyNone true 400 world0) = Ok PyNone /\
  params (world_of (Node.get_param "/gain" PyNone true 400 world0)) =
    params world0.
Proof.
  assert (Hget : rospy.fw_get_param "/gain" world0 =
                 (Raise (KeyError "/gain"), world0)) by reflexivity.
  destruct (get_param_missing_no_default "/gain" true 400 world0 world0 "/gain"
              Hget) as (Hr & _ & _ & Hw).
  split; [exact Hr | rewrite Hw; reflexivity].
Defined.

(** C4 as the specification words it fails at [limit = 0]: the text
    ["abc"] is longer than 0 characters, the rule asks for the first 0
    characters and the marker, and [set_param] logs the text whole. *)
Lemma set_param_limit_zero_logs_value_whole :
  let t := trace_of (Node.set_param "/k" (PyObj (OStr "abc")) true 0 world0) in
  0 < len (str (PyObj (OStr "abc"))) /\
  info_messages t = ["[/talker] /k=abc"] /\
  ~ (exists text,
       info_messages t = [value_line "/talker" "/k" text] /\
       logged_as_claimed 0 (str (PyObj (OStr "abc"))) text).
Proof.
  cbv zeta. split; [reflexivity |]. split; [reflexivity |].
  intros (text & Hmsg & Hcut & _).
  destruct (Hcut eq_refl) as (p & rest & _ & Hlen & ->).
  destruct p as [|c p]; [discriminate Hmsg |].
  unfold len in Hlen. cbn [String.length] in Hlen. lia.
Qed.

(** C4, amended, at work: a cut at [limit = 2], and none at [limit = 0]. *)
Lemma logged_value_truncated_when_limit_positive_witness :
  (exists text,
     info_messages
       (trace_of (Node.get_param "/rate" (PyNone : PyVal Obj) true 2 world0)) =
       [value_line "/talker" "/rate" text] /\
     logged_as_guarded 2 "fast" text) /\
  (exists text,
     info_messages
       (trace_of (Node.set_param "/k" (PyObj (OStr "abc")) false 0 world0)) =
       [value_line "/talker" "/k" text] /\
     logged_as_guarded 0 "abc" text).
Proof.
  assert (Hget : rospy.fw_get_param "/rate" world0 =
                 (Ok (PyObj (OStr "fast")), world0)) by reflexivity.
  assert (Hset : rospy.fw_set_param "/k" (PyObj (OStr "abc")) world0 =
                 (Ok tt,
                  with_params (<["/k" := PyObj (OStr "abc")]> (params world0))
                              world0)) by reflexivity.
  split.
  - exact (proj2 (logged_value_truncated_when_limit_positive
                    "/rate" (PyObj (OStr "fast")) PyNone true 2 world0 world0)
                 Hget).
  - exact (proj1 (logged_value_truncated_when_limit_positive
                    "/k" (PyObj (OStr "abc")) PyNone false 0 world0 _)
                 Hset).
Defined.

Example get_param_logs_cut_text :
  rosout (world_of (Node.get_param "/rate" (PyNone : PyVal Obj) true 2 world0)) =
    [(INFO, "[/talker] /rate=fa...")].
Proof. reflexivity. Qed.

(** C5 at work: the value is stored whole while its logged text is cut. *)
Lemma set_param_writes_value_get_param_returns_value_witness :
  writes (trace_of (Node.set_param "/k" (PyObj (OStr "abcdef")) true 3 world0)) =
    [("/k", PyObj (OStr "abcdef"))] /\
  params (world_of (Node.set_param "/k" (PyObj (OStr "abcdef")) true 3 world0))
    !! "/k" = Some (PyObj (OStr "abcdef")) /\
  rosout (world_of (Node.set_param "/k" (PyObj (OStr "abcdef")) true 3 world0)) =
    [(INFO, "[/talker] /k=abc...")].
Proof.
  assert (Hset : rospy.fw_set_param "/k" (PyObj (OStr "abcdef")) world0 =
                 (Ok tt,
                  with_params (<["/k" := PyObj (OStr "abcdef")]> (params world0))
                              world0)) by reflexivity.
  destruct (set_param_writes_value_get_param_returns_value
              "/k" (PyObj (OStr "abcdef")) PyNone true 3 world0
              (with_params (<["/k" := PyObj (OStr "abcdef")]> (params world0))
                           world0))
    as (Hwrites & Hworld & _).
  destruct (Hworld Hset) as [_ Hw].
  split; [exact Hwrites |].
  split; rewrite Hw; reflexivity.
Defined.

(** C6 at work: an anonymous node on a fresh world. *)
Lemma init_registers_with_same_arguments_then_logs_witness :
  trace_of (Node.__init__ "talker" true false fresh) =
    [rospy.Ev (rospy.CInitNode "talker" true false) rospy.RUnit;
     rospy.Ev rospy.CGetName (rospy.RStr "/talker_1");
     rospy.Ev (rospy.CLogInfo "[/talker_1] Initialized.") rospy.RUnit].
Proof.
  assert (Hinit : rospy.fw_init_node "talker" true false fresh =
                  (Ok tt,
                   {| node_name := Some "/talker_1"; params := params fresh;
                      master_up := master_up fresh; rosout := rosout fresh;
                      wakeups := wakeups fresh |})) by reflexivity.
  destruct (init_registers_with_same_arguments_then_logs
              "talker" true false fresh) as (_ & Hok & _).
  rewrite (Hok _ Hinit). reflexivity.
Defined.

(** C7 at work: [spin] refuses a node that was never registered, and
    [run] ends with that exception; the master cannot be reached, and
    [set_param] ends with the refusal. *)
Lemma framework_exceptions_propagate_witness :
  Node.run 3 fresh =
    Some (Raise (OtherError "ROSInitException" "call init_node() first"), fresh,
          [rospy.Ev rospy.CIsShutdown (rospy.RBool false);
           rospy.Ev rospy.CSpin
                    (rospy.RRaised
                       (OtherError "ROSInitException" "call init_node() first"))]) /\
  result_of (Node.set_param "/k" (PyObj (OStr "abc")) true 400 (offline world0)) =
    Raise (OtherError "ConnectionRefusedError" "master").
Proof.
  assert (Hdown : rospy.fw_is_shutdown fresh = false) by reflexivity.
  assert (Hspin : rospy.fw_spin fresh =
                  (Raise (OtherError "ROSInitException" "call init_node() first"),
                   fresh)) by reflexivity.
  assert (Hset : rospy.fw_set_param "/k" (PyObj (OStr "abc")) (offline world0) =
                 (Raise (OtherError "ConnectionRefusedError" "master"),
                  offline world0)) by reflexivity.
  split.
  - destruct (framework_exceptions_propagate
                fresh (OtherError "ROSInitException" "call init_node() first"))
      as (_ & Hrun & _).
    exact (Hrun 3%nat 0%nat fresh fresh (spins_O fresh) Hdown Hspin ltac:(lia)).
  - destruct (framework_exceptions_propagate
                (offline world0) (OtherError "ConnectionRefusedError" "master"))
      as (_ & _ & _ & _ & Hwrite & _).
    rewrite (Hwrite "/k" (PyObj (OStr "abc")) true 400 (offline world0) Hset).
    reflexivity.
Defined.

(** C8 at work: the flag comes up after two turns. *)
Lemma run_waits_until_shutdown_witness :
  exists w',
    Node.run 3 world0 =
      Some (Ok tt, w',
            turns 2 ++
            [rospy.Ev rospy.CIsShutdown (rospy.RBool true);
             rospy.Ev rospy.CGetName (rospy.RStr "/talker");
             rospy.Ev (rospy.CLogInfo "[/talker] Shutting down...") rospy.RUnit])
    /\ Node.run 2 world0 = None.
Proof.
  set (w1 := {| node_name := node_name world0; params := params world0;
                master_up := true; rosout := []; wakeups := 1 |}).
  set (w2 := {| node_name := node_name world0; params := params world0;
                master_up := true; rosout := []; wakeups := 0 |}).
  assert (Hspins : spins 2 world0 w2).
  { apply (spins_S 1 world0 w1 w2); [reflexivity | reflexivity |].
    apply (spins_S 0 w1 w2 w2); [reflexivity | reflexivity | apply spins_O]. }
  destruct (run_waits_until_shutdown world0) as (_ & Hexit & Hon & _).
  eexists. split.
  - rewrite (Hexit 2%nat w2 3%nat Hspins eq_refl ltac:(lia)). reflexivity.
  - exact (Hon 2%nat w2 2%nat Hspins ltac:(lia)).
Defined.

(** C9 at work: [verbose] is false and the value line is logged. *)
Lemma set_param_logs_whatever_verbose_witness :
  rosout (world_of (Node.set_param "/k" (PyObj (OStr "abc")) false 400 world0)) =
    [(INFO, "[/talker] /k=abc")] /\
  info_messages
    (trace_of (Node.set_param "/k" (PyObj (OStr "abc")) false 400 world0)) =
    ["[/talker] /k=abc"].
Proof.
  assert (Hset : rospy.fw_set_param "/k" (PyObj (OStr "abc")) world0 =
                 (Ok tt,
                  with_params (<["/k" := PyObj (OStr "abc")]> (params world0))
                              world0)) by reflexivity.
  destruct (set_param_logs_whatever_verbose
              "/k" (PyObj (OStr "abc")) false true 400 world0
              (with_params (<["/k" := PyObj (OStr "abc")]> (params world0))
                           world0)) as [_ Hlog].
  split; [reflexivity | rewrite (Hlog Hset); reflexivity].
Defined.

(** C10 at work: the parameter server is the same after a quiet call and
    after a verbose one. *)
Lemma get_param_independent_of_verbose_and_limit_witness :
  params (world_of (Node.get_param "/rate" (PyNone : PyVal Obj) true 2 world0)) =
  params (world_of (Node.get_param "/rate" (PyNone : PyVal Obj) false 400 world0)).
Proof.
  destruct (get_param_independent_of_verbose_and_limit
              "/rate" (PyNone : PyVal Obj) true 2 false 400 world0)
    as (_ & _ & _ & Hstore).
  exact (Hstore _ params (fun msg w0 => eq_refl)).
Defined.

(** More runs: the warning of the missing default, a master that cannot
    be reached, a name the framework refuses. *)
Example get_param_missing_warns :
  warn_messages
    (trace_of (Node.get_param "/gain" (PyNone : PyVal Obj) true
                              Node.default_limit world0)) =
    ["[/talker] No default value given for parameter '/gain', unexpected behaviour possible."].
Proof. reflexivity. Qed.

Example get_param_offline_raises :
  Node.get_param "/rate" (PyObj (OStr "slow")) true Node.default_limit
                 (offline world0) =
    (unreachable, offline world0,
     [rospy.Ev (rospy.CGetParam "/rate")
               (rospy.RRaised (OtherError "ConnectionRefusedError" "master"))]).
Proof. reflexivity. Qed.

Example init_empty_name_raises :
  Node.__init__ "" false false fresh =
    (Raise (OtherError "ValueError" "name must not be empty"), fresh,
     [rospy.Ev (rospy.CInitNode "" false false)
               (rospy.RRaised (OtherError "ValueError" "name must not be empty"))]).
Proof. reflexivity. Qed.

Example run_unregistered_raises :
  result_of <$> Node.run 3 fresh =
    Some (Raise (OtherError "ROSInitException" "call init_node() first")).
Proof. reflexivity. Qed.

(** ** Further runs on the reference framework *)

Lemma get_param_writes_only_missing_default_witness :
  writes (trace_of (Node.get_param "/gain" (PyObj (OStr "high")) true 400 world0)) =
    [("/gain", PyObj (OStr "high"))] /\
  writes (trace_of (Node.get_param "/rate" (PyObj (OStr "slow")) true 400 world0)) =
    [].
Proof.
  destruct (get_param_writes_only_missing_default
              "/gain" (PyObj (OStr "high")) true 400 world0) as [_ Hiff].
  split; [| reflexivity].
  apply Hiff. split; [| discriminate].
  exists "/gain", world0. reflexivity.
Defined.

Lemma get_param_warning_shows_default_whole_witness :
  warn_messages
    (trace_of (Node.get_param "/gain" (PyObj (OStr "a long default")) false 2
                              world0)) =
    ["[/talker] Parameter '/gain' does not exist. Using default value 'a long default'."].
Proof.
  assert (Hget : rospy.fw_get_param "/gain" world0 =
                 (Raise (KeyError "/gain"), world0)) by reflexivity.
  assert (Hset : rospy.fw_set_param "/gain" (PyObj (OStr "a long default")) world0 =
                 (Ok tt,
                  with_params
                    (<["/gain" := PyObj (OStr "a long default")]> (params world0))
                    world0)) by reflexivity.
  destruct (get_param_warning_shows_default_whole
              "/gain" (OStr "a long default") false 2 world0 world0 _ "/gain"
              Hget Hset) as [Hwarn _].
  rewrite Hwarn. reflexivity.
Defined.

Lemma get_param_logs_at_most_once_witness :
  result_of (Node.get_param "/gain" (PyObj (OStr "high")) true 400 world0) =
    Ok (PyObj (OStr "high")) /\
  info_messages
    (trace_of (Node.get_param "/gain" (PyObj (OStr "high")) true 400 world0)) = [].
Proof.
  destruct (get_param_logs_at_most_once
              "/gain" (PyObj (OStr "high")) true 400 world0) as (_ & _ & Hwarn).
  split; [| reflexivity].
  apply Hwarn. discriminate.
Defined.

Lemma get_param_failed_write_logs_nothing_witness :
  let out :=
    Node.get_param (H0 := ReadOnlyRospy.ReadOnly_Framework)
                   "/gain" (PyObj (OStr "high")) true 400 world0 in
  result_of out = ReadOnlyRospy.refused /\ rosout (world_of out) = [].
Proof.
  cbv zeta.
  assert (Hget : rospy.fw_get_param
                   (Framework := ReadOnlyRospy.ReadOnly_Framework) "/gain" world0 =
                 (Raise (KeyError "/gain"), world0)) by reflexivity.
  assert (Hset : rospy.fw_set_param
                   (Framework := ReadOnlyRospy.ReadOnly_Framework)
                   "/gain" (PyObj (OStr "high")) world0 =
                 (ReadOnlyRospy.refused, world0)) by reflexivity.
  destruct (get_param_failed_write_logs_nothing
              (H0 := ReadOnlyRospy.ReadOnly_Framework)
              "/gain" (OStr "high") true 400 world0 world0 world0 "/gain" _
              Hget Hset) as (Hr & Hw & _).
  split; [exact Hr | rewrite Hw; reflexivity].
Defined.

Lemma get_param_default_not_used_on_other_errors_witness :
  result_of (Node.get_param "/rate" (PyObj (OStr "slow")) true 400
                            (offline world0)) =
    Raise (OtherError "ConnectionRefusedError" "master").
Proof.
  assert (Hget : rospy.fw_get_param "/rate" (offline world0) =
                 (Raise (OtherError "ConnectionRefusedError" "master"),
                  offline world0)) by reflexivity.
  destruct (get_param_default_not_used_on_other_errors
              "/rate" (PyObj (OStr "slow")) true 400 (offline world0) _ _
              Hget eq_refl) as [Hr _].
  exact Hr.
Defined.

Lemma get_param_quiet_is_lookup_witness :
  Node.get_param "/rate" (PyObj (OStr "slow")) false 2 world0 =
    (Ok (PyObj (OStr "fast")), world0,
     [rospy.Ev (rospy.CGetParam "/rate") (rospy.RVal (PyObj (OStr "fast")))]).
Proof.
  rewrite (get_param_quiet_is_lookup "/rate" (PyObj (OStr "slow")) 2 world0).
  - reflexivity.
  - intros k w1 Heq. vm_compute in Heq. discriminate Heq.
Defined.

Lemma set_param_logs_iff_written_witness :
  info_messages
    (trace_of (Node.set_param "/k" (PyObj (OStr "abc")) true 400 world0)) <> [] /\
  info_messages
    (trace_of (Node.set_param "/k" (PyObj (OStr "abc")) true 400 (offline world0)))
    = [].
Proof.
  assert (Hset : rospy.fw_set_param "/k" (PyObj (OStr "abc")) world0 =
                 (Ok tt,
                  with_params (<["/k" := PyObj (OStr "abc")]> (params world0))
                              world0)) by reflexivity.
  assert (Hoff : rospy.fw_set_param "/k" (PyObj (OStr "abc")) (offline world0) =
                 (Raise (OtherError "ConnectionRefusedError" "master"),
                  offline world0)) by reflexivity.
  split.
  - destruct (set_param_logs_iff_written
                "/k" (PyObj (OStr "abc")) true 400 world0) as [[_ Hlogged] _].
    apply Hlogged. eexists. exact Hset.
  - destruct (set_param_logs_iff_written
                "/k" (PyObj (OStr "abc")) true 400 (offline world0))
      as (_ & _ & Hraise & _).
    destruct (Hraise _ _ Hoff) as (_ & _ & Hnone). exact Hnone.
Defined.

Lemma logged_text_length_witness :
  exists text,
    info_messages
      (trace_of (Node.set_param "/k" (PyObj (OStr "abc")) true 2 world0)) =
      ["[/talker] /k=" +:+ text] /\
    len "abc" < len text.
Proof.
  assert (Hset : rospy.fw_set_param "/k" (PyObj (OStr "abc")) world0 =
                 (Ok tt,
                  with_params (<["/k" := PyObj (OStr "abc")]> (params world0))
                              world0)) by reflexivity.
  destruct (logged_text_length "/k" (PyObj (OStr "abc")) PyNone true 2 world0
              (with_params (<["/k" := PyObj (OStr "abc")]> (params world0))
                           world0)
              ltac:(lia))
    as (text & Hmsg & _ & _ & _ & Hlonger).
  exists text. split; [exact (Hmsg Hset) |].
  apply Hlonger. vm_compute. split; reflexivity.
Defined.

(** The reference parameter server reads back what was written, and its
    log is kept apart from it. *)
Lemma ref_reads_back name (value : PyVal Obj) (w0 w0' : World) :
  rospy.fw_set_param name value w0 = (Ok tt, w0') ->
  fst (rospy.fw_get_param name w0') = Ok value.
Proof.
  cbn. destruct (master_up w0) eqn:Hup; [| discriminate].
  intros [= <-]. cbn. rewrite Hup, lookup_insert_eq. reflexivity.
Qed.

Lemma ref_log_apart l name msg (w0 : World) :
  fst (rospy.fw_get_param name (with_record l msg w0)) =
  fst (rospy.fw_get_param name w0).
Proof. cbn. destruct (master_up w0), (params w0 !! name); reflexivity. Qed.

Lemma get_param_after_set_param_witness :
  result_of
    (Node.get_param "/k" (PyObj (OStr "other")) true 2
       (world_of (Node.set_param "/k" (PyObj (OStr "abcdef")) true 3 world0))) =
    Ok (PyObj (OStr "abcdef")).
Proof.
  assert (Hset : rospy.fw_set_param "/k" (PyObj (OStr "abcdef")) world0 =
                 (Ok tt,
                  with_params (<["/k" := PyObj (OStr "abcdef")]> (params world0))
                              world0)) by reflexivity.
  destruct (get_param_after_set_param
              "/k" (PyObj (OStr "abcdef")) (PyObj (OStr "other")) true 3 true 2
              world0 _
              (ref_reads_back "/k" (PyObj (OStr "abcdef")))
              (ref_log_apart INFO "/k") Hset) as [Hr _].
  exact Hr.
Defined.

Lemma get_param_default_persists_witness :
  result_of
    (Node.get_param "/gain" (PyObj (OStr "low")) true 400
       (world_of (Node.get_param "/gain" (PyObj (OStr "high")) true 400 world0))) =
    Ok (PyObj (OStr "high")).
Proof.
  assert (Hget : rospy.fw_get_param "/gain" world0 =
                 (Raise (KeyError "/gain"), world0)) by reflexivity.
  assert (Hset : rospy.fw_set_param "/gain" (PyObj (OStr "high")) world0 =
                 (Ok tt,
                  with_params (<["/gain" := PyObj (OStr "high")]> (params world0))
                              world0)) by reflexivity.
  destruct (get_param_default_persists
              "/gain" (OStr "high") (PyObj (OStr "low")) true 400 true 400
              world0 world0 _ "/gain"
              (ref_reads_back "/gain" (PyObj (OStr "high")))
              (ref_log_apart WARN "/gain") Hget Hset) as [Hr _].
  exact Hr.
Defined.

Lemma life_cycle_never_touches_parameters_witness :
  exists out,
    Node.run 3 world0 = Some out /\
    Forall (fun ev => is_param_call ev = false) (trace_of out) /\
    params (world_of out) = params world0.
Proof.
  destruct (Node.run 3 world0) as [[[r w'] t]|] eqn:Hrun; [| discriminate Hrun].
  destruct (life_cycle_never_touches_parameters world0) as [_ Hrunning].
  destruct (Hrunning 3%nat r w' t Hrun) as [Hcalls _].
  exists (r, w', t). split; [reflexivity |]. split; [exact Hcalls |].
  injection Hrun as _ <- _. reflexivity.
Defined.
